(** * OTP issuer and verifier of the HireLens backend ([src/main.py])

    A shallow embedding of the two OTP endpoints, [send_otp] and
    [verify_otp], over an explicit document store standing for the MongoDB
    collection ["otp"].  Python strings are modelled as [string] (ASCII
    characters), and [is_valid_phone] also over Unicode code points (module
    [Unicode]); timestamps as [Z] microseconds since the epoch, UTC. *)

From Stdlib Require Import String Ascii List ZArith Bool Arith Lia.
Import ListNotations.
Open Scope Z_scope.

(** ** Python values as the loosely typed store may hold them *)

(** The value kinds a stored field can carry.  A [datetime] carries whether
    it is timezone-aware and its instant in microseconds (UTC for aware
    values, wall clock for naive ones). *)
Inductive pyval : Type :=
| PyNone
| PyBool (b : bool)
| PyInt (z : Z)
| PyStr (s : string)
| PyDatetime (aware : bool) (t : Z).

(** Python truthiness, [bool(v)]: a [datetime] is always true. *)
Definition truthy (v : pyval) : bool :=
  match v with
  | PyNone => false
  | PyBool b => b
  | PyInt z => negb (Z.eqb z 0)
  | PyStr s => negb (String.eqb s EmptyString)
  | PyDatetime _ _ => true
  end.

(** [dict.get(key)]: a missing key reads as [None]. *)
Definition dict_get (o : option pyval) : pyval :=
  match o with Some v => v | None => PyNone end.

(** ** String helpers: [str.strip], [str.lower] *)

(** [str.isspace] on ASCII: space, \t \n \v \f \r and the separators
    \x1c-\x1f. *)
Definition is_py_space (c : ascii) : bool :=
  let n := nat_of_ascii c in
  (Nat.eqb n 32 || (Nat.leb 9 n && Nat.leb n 13) || (Nat.leb 28 n && Nat.leb n 31))%bool.

Fixpoint drop_spaces (l : list ascii) : list ascii :=
  match l with
  | [] => []
  | c :: r => if is_py_space c then drop_spaces r else l
  end.

(** [str.strip()]: drop leading, then trailing whitespace. *)
Definition strip_list (l : list ascii) : list ascii :=
  rev (drop_spaces (rev (drop_spaces l))).

Definition strip (s : string) : string :=
  string_of_list_ascii (strip_list (list_ascii_of_string s)).

(** [str.lower()] on ASCII letters. *)
Definition lower_char (c : ascii) : ascii :=
  let n := nat_of_ascii c in
  if (Nat.leb 65 n && Nat.leb n 90)%bool then ascii_of_nat (n + 32) else c.

Fixpoint lower (s : string) : string :=
  match s with
  | EmptyString => EmptyString
  | String c r => String (lower_char c) (lower r)
  end.

(** ** The phone pattern [(\+?\d{10,15})] and [re.fullmatch] *)

(** The fragment of Python's regular expressions used by [is_valid_phone]. *)
Inductive regex : Type :=
| RChar (c : ascii)
| RDigit                          (* \d *)
| ROpt (r : regex)                (* r? *)
| RRep (r : regex) (lo hi : nat)  (* r{lo,hi} *)
| RSeq (r1 r2 : regex)
| RGroup (r : regex).             (* ( r ) *)

Definition is_digit (c : ascii) : bool :=
  let n := nat_of_ascii c in (Nat.leb 48 n && Nat.leb n 57)%bool.

(** Backtracking matcher: every remainder of [s] left after a match of the
    pattern at the start of [s]. *)
Fixpoint rep_rest (m : list ascii -> list (list ascii)) (lo hi : nat)
    (s : list ascii) : list (list ascii) :=
  match hi with
  | O => if Nat.eqb lo 0 then [s] else []
  | S h => flat_map (rep_rest m (pred lo) h) (m s)
           ++ (if Nat.eqb lo 0 then [s] else [])
  end.

Fixpoint regex_rest (r : regex) (s : list ascii) : list (list ascii) :=
  match r with
  | RChar c => match s with
               | c' :: s' => if ascii_dec c c' then [s'] else []
               | [] => []
               end
  | RDigit => match s with
              | c' :: s' => if is_digit c' then [s'] else []
              | [] => []
              end
  | ROpt r1 => regex_rest r1 s ++ [s]
  | RRep r1 lo hi => rep_rest (regex_rest r1) lo hi s
  | RSeq r1 r2 => flat_map (regex_rest r2) (regex_rest r1 s)
  | RGroup r1 => regex_rest r1 s
  end.

(** [re.fullmatch(r, s)] is not [None]. *)
Definition fullmatch (r : regex) (s : string) : bool :=
  existsb (fun rest => match rest with [] => true | _ => false end)
          (regex_rest r (list_ascii_of_string s)).

Definition phone_regex : regex :=
  RGroup (RSeq (ROpt (RChar "+")) (RRep RDigit 10 15)).

(** [is_valid_phone(value)] *)
Definition is_valid_phone (value : string) : bool :=
  fullmatch phone_regex (strip value).

(** ** [is_valid_phone] over Python's Unicode strings

    A Python [str] is a sequence of code points, and a [str] pattern is
    matched with Unicode semantics: [\d] matches every character of
    category Nd (decimal digit), and [str.strip()] drops every character
    for which [str.isspace()] holds.  The [string] model above covers the
    7-bit part of this; the module below models [is_valid_phone] on
    sequences of code points ([Z]), with the Unicode tables of Python 3.11
    (Unicode 14.0). *)
Module Unicode.

(** [str.isspace()]: \t \n \v \f \r, \x1c-\x1f, space, U+0085, U+00A0,
    U+1680, U+2000-U+200A, U+2028, U+2029, U+202F, U+205F, U+3000. *)
Definition is_space (c : Z) : bool :=
  ((9 <=? c) && (c <=? 13) || (0x1C <=? c) && (c <=? 0x20)
   || existsb (Z.eqb c) [0x85; 0xA0; 0x1680; 0x2028; 0x2029; 0x202F; 0x205F; 0x3000]
   || (0x2000 <=? c) && (c <=? 0x200A))%bool.

Fixpoint drop_spaces (l : list Z) : list Z :=
  match l with
  | [] => []
  | c :: r => if is_space c then drop_spaces r else l
  end.

(** [str.strip()] *)
Definition strip (l : list Z) : list Z :=
  rev (drop_spaces (rev (drop_spaces l))).

(** The code point ranges of category Nd. *)
Definition decimal_ranges : list (Z * Z) := [
  (0x30, 0x39); (0x660, 0x669); (0x6F0, 0x6F9); (0x7C0, 0x7C9);
  (0x966, 0x96F); (0x9E6, 0x9EF); (0xA66, 0xA6F); (0xAE6, 0xAEF);
  (0xB66, 0xB6F); (0xBE6, 0xBEF); (0xC66, 0xC6F); (0xCE6, 0xCEF);
  (0xD66, 0xD6F); (0xDE6, 0xDEF); (0xE50, 0xE59); (0xED0, 0xED9);
  (0xF20, 0xF29); (0x1040, 0x1049); (0x1090, 0x1099); (0x17E0, 0x17E9);
  (0x1810, 0x1819); (0x1946, 0x194F); (0x19D0, 0x19D9); (0x1A80, 0x1A89);
  (0x1A90, 0x1A99); (0x1B50, 0x1B59); (0x1BB0, 0x1BB9); (0x1C40, 0x1C49);
  (0x1C50, 0x1C59); (0xA620, 0xA629); (0xA8D0, 0xA8D9); (0xA900, 0xA909);
  (0xA9D0, 0xA9D9); (0xA9F0, 0xA9F9); (0xAA50, 0xAA59); (0xABF0, 0xABF9);
  (0xFF10, 0xFF19); (0x104A0, 0x104A9); (0x10D30, 0x10D39);
  (0x11066, 0x1106F); (0x110F0, 0x110F9); (0x11136, 0x1113F);
  (0x111D0, 0x111D9); (0x112F0, 0x112F9); (0x11450, 0x11459);
  (0x114D0, 0x114D9); (0x11650, 0x11659); (0x116C0, 0x116C9);
  (0x11730, 0x11739); (0x118E0, 0x118E9); (0x11950, 0x11959);
  (0x11C50, 0x11C59); (0x11D50, 0x11D59); (0x11DA0, 0x11DA9);
  (0x16A60, 0x16A69); (0x16AC0, 0x16AC9); (0x16B50, 0x16B59);
  (0x1D7CE, 0x1D7FF); (0x1E140, 0x1E149); (0x1E2F0, 0x1E2F9);
  (0x1E950, 0x1E959); (0x1FBF0, 0x1FBF9)].

(** [\d] on a [str]: [unicodedata.category(c) == "Nd"]. *)
Definition is_decimal (c : Z) : bool :=
  existsb (fun r => ((fst r <=? c) && (c <=? snd r))%bool) decimal_ranges.

Inductive regex : Type :=
| RChar (c : Z)
| RDigit                          (* \d *)
| ROpt (r : regex)                (* r? *)
| RRep (r : regex) (lo hi : nat)  (* r{lo,hi} *)
| RSeq (r1 r2 : regex)
| RGroup (r : regex).             (* ( r ) *)

Fixpoint rep_rest (m : list Z -> list (list Z)) (lo hi : nat) (s : list Z)
    : list (list Z) :=
  match hi with
  | O => if Nat.eqb lo 0 then [s] else []
  | S h => flat_map (rep_rest m (pred lo) h) (m s)
           ++ (if Nat.eqb lo 0 then [s] else [])
  end.

Fixpoint regex_rest (r : regex) (s : list Z) : list (list Z) :=
  match r with
  | RChar c => match s with
               | c' :: s' => if Z.eqb c c' then [s'] else []
               | [] => []
               end
  | RDigit => match s with
              | c' :: s' => if is_decimal c' then [s'] else []
              | [] => []
              end
  | ROpt r1 => regex_rest r1 s ++ [s]
  | RRep r1 lo hi => rep_rest (regex_rest r1) lo hi s
  | RSeq r1 r2 => flat_map (regex_rest r2) (regex_rest r1 s)
  | RGroup r1 => regex_rest r1 s
  end.

(** [re.fullmatch(r, s)] is not [None]. *)
Definition fullmatch (r : regex) (s : list Z) : bool :=
  existsb (fun rest => match rest with [] => true | _ => false end) (regex_rest r s).

(** [r"(\+?\d{10,15})"] *)
Definition phone_regex : regex :=
  RGroup (RSeq (ROpt (RChar 43)) (RRep RDigit 10 15)).

(** [is_valid_phone(value)] *)
Definition is_valid_phone (value : list Z) : bool :=
  fullmatch phone_regex (strip value).

End Unicode.




(** ** Requests, responses, errors *)

(** [Literal["email", "phone"]] *)
Inductive Via : Type := ViaEmail | ViaPhone.

Record SendOtpRequest : Type := {
  send_identifier : string;
  send_via : Via
}.

Record VerifyOtpRequest : Type := {
  verify_identifier : string;
  verify_otp_code : string   (* field [otp] *)
}.

(** The [HTTPException]s raised by the two endpoints, and an uncaught
    exception (FastAPI answers 500). *)
Inductive HttpError : Type :=
| InvalidIdentifier   (* 400 "Invalid email address" / "Invalid phone number" *)
| StorageError        (* 500 "Database error: ..." *)
| DbNotConfigured     (* 500 "Database not configured" *)
| InvalidCode         (* 400 "Invalid code" *)
| CodeAlreadyUsed     (* 400 "Code already used" *)
| CodeExpired         (* 400 "Code expired" *)
| InternalError.      (* uncaught exception, 500 *)

Definition status_code (e : HttpError) : Z :=
  match e with
  | StorageError | DbNotConfigured | InternalError => 500
  | _ => 400
  end.

Record SendOtpResponse : Type := { sent_debug_code : string }.       (* status "sent" *)
Record VerifyOtpResponse : Type := { verified_token : string }.      (* status "verified" *)

(** ** The ["otp"] collection *)

Record OtpDoc : Type := {
  otp_id : Z;                        (* _id *)
  otp_identifier : string;
  otp_via : Via;
  otp_code : string;
  otp_consumed : option pyval;       (* None: key absent *)
  otp_expires_at : option pyval;
  otp_created_at : option pyval;
  otp_updated_at : option pyval
}.

(** The process-wide [db] handle: [None] when the database is not
    configured, else the documents of ["otp"] in natural order. *)
Definition Db := option (list OtpDoc).

(** The dict built by [send_otp] (lines 71-77). *)
Record OtpData : Type := {
  data_identifier : string;
  data_via : Via;
  data_code : string;
  data_consumed : pyval;
  data_expires_at : pyval
}.

Definition next_id (docs : list OtpDoc) : Z :=
  1 + fold_right (fun d m => Z.max (otp_id d) m) 0 docs.

(** Modelled from the spec: [create_document] of [database.py] (not under
    src/).  "Persistence: write a new OtpRecord"; "id: assigned by storage
    on creation"; "created_at / updated_at: timestamps"; "Failure to persist
    -> StorageError": with no database, the write raises. *)
Definition create_document (db : Db) (data : OtpData) (now : Z) : option Db :=
  match db with
  | None => None
  | Some docs =>
      Some (Some (docs ++ [{| otp_id := next_id docs;
                              otp_identifier := data_identifier data;
                              otp_via := data_via data;
                              otp_code := data_code data;
                              otp_consumed := Some (data_consumed data);
                              otp_expires_at := Some (data_expires_at data);
                              otp_created_at := Some (PyDatetime true now);
                              otp_updated_at := Some (PyDatetime true now) |}]))
  end.

(** ** [send_otp] *)

(** In pydantic 2, [EmailStr] is a plain class whose only members are the
    class methods [__get_pydantic_core_schema__],
    [__get_pydantic_json_schema__] and [_validate]; it defines neither
    [__new__] nor [__init__], so the call [EmailStr(identifier)] of line 56
    raises [TypeError: EmailStr() takes no arguments] for every argument.
    [None] is that exception. *)
Definition EmailStr_call (s : string) : option unit := None.

(** [f"{n:06d}"] for [0 <= n < 10^6]: six decimal digits, zero-padded. *)
Fixpoint digits_fixed (k : nat) (n : Z) (acc : string) : string :=
  match k with
  | O => acc
  | S k' => digits_fixed k' (n / 10)
              (String (ascii_of_nat (48 + Z.to_nat (n mod 10))) acc)
  end.

Definition format_06d (n : Z) : string := digits_fixed 6 n EmptyString.

(** [timedelta(minutes=10)] in microseconds. *)
Definition ten_minutes : Z := 600000000.

Definition via_is_email (v : Via) : bool :=
  match v with ViaEmail => true | ViaPhone => false end.

(** Lines 53-61: the identifier check; [false] when an [HTTPException(400)]
    is raised. *)
Definition validate_identifier (via : Via) (identifier : string) : bool :=
  if via_is_email via
  then match EmailStr_call identifier with Some _ => true | None => false end
  else is_valid_phone identifier.

(** [send_otp(body)]: [uuid_int] is [uuid.uuid4().int], [now] is
    [datetime.now(timezone.utc)].  Returns the store afterwards and the
    response or the raised error. *)
Definition send_otp (db : Db) (body : SendOtpRequest) (uuid_int now : Z)
    : Db * (HttpError + SendOtpResponse) :=
  let identifier := strip (send_identifier body) in
  if negb (validate_identifier (send_via body) identifier)
  then (db, inl InvalidIdentifier) else
  let code := format_06d (uuid_int mod 1000000) in
  let expires_at := now + ten_minutes in
  let data := {| data_identifier :=
                   if via_is_email (send_via body) then lower identifier else identifier;
                 data_via := send_via body;
                 data_code := code;
                 data_consumed := PyBool false;
                 data_expires_at := PyDatetime true expires_at |} in
  match create_document db data now with
  | None => (db, inl StorageError)
  | Some db' => (db', inr {| sent_debug_code := code |})
  end.


(** ** [verify_otp] *)

Section Verifier.

(** [datetime.fromisoformat(s)]: the parsed value (timezone-aware or not,
    and its instant), or [None] when it raises. *)
Variable fromisoformat : string -> option (bool * Z).

(** The filter of [find_one]:
    [{"$or": [{"identifier": q_identifier}, {"identifier": identifier}], "code": otp}]. *)
Definition otp_query (q_identifier identifier otp : string) (d : OtpDoc) : bool :=
  ((String.eqb (otp_identifier d) q_identifier
    || String.eqb (otp_identifier d) identifier)
   && String.eqb (otp_code d) otp)%bool.

(** [find_one(filter)]: the first matching document in natural order. *)
Fixpoint find_one (p : OtpDoc -> bool) (docs : list OtpDoc) : option OtpDoc :=
  match docs with
  | [] => None
  | d :: r => if p d then Some d else find_one p r
  end.

(** [{"$set": {"consumed": True, "updated_at": now}}] applied to a document. *)
Definition mark_consumed (d : OtpDoc) (now : Z) : OtpDoc :=
  {| otp_id := otp_id d;
     otp_identifier := otp_identifier d;
     otp_via := otp_via d;
     otp_code := otp_code d;
     otp_consumed := Some (PyBool true);
     otp_expires_at := otp_expires_at d;
     otp_created_at := otp_created_at d;
     otp_updated_at := Some (PyDatetime true now) |}.

(** [update_one({"_id": id}, {"$set": ...})]: the first document with that
    [_id] is updated. *)
Fixpoint update_one (docs : list OtpDoc) (id now : Z) : list OtpDoc :=
  match docs with
  | [] => []
  | d :: r => if Z.eqb (otp_id d) id then mark_consumed d now :: r
              else d :: update_one r id now
  end.

(** Lines 119-124: a string expiry is parsed; on failure it stays as it is. *)
Definition parse_expiry (v : pyval) : pyval :=
  match v with
  | PyStr s => match fromisoformat s with
               | Some (aware, t) => PyDatetime aware t
               | None => v
               end
  | _ => v
  end.

(** [datetime.now(timezone.utc) > v]: [None] when Python raises [TypeError]
    (a naive datetime, or a value that is not a datetime). *)
Definition now_gt (now : Z) (v : pyval) : option bool :=
  match v with
  | PyDatetime true t => Some (Z.gtb now t)
  | _ => None
  end.

(** Lines 91-111: the lookup. *)
Definition verify_lookup (docs : list OtpDoc) (body : VerifyOtpRequest) : option OtpDoc :=
  let identifier := strip (verify_identifier body) in
  let q_identifier := lower identifier in
  find_one (otp_query q_identifier identifier (verify_otp_code body)) docs.

(** Lines 116-126: the checks on the document found; [None] when they pass. *)
Definition verify_check (doc : OtpDoc) (now : Z) : option HttpError :=
  if truthy (dict_get (otp_consumed doc)) then Some CodeAlreadyUsed else
  let expires_at := parse_expiry (dict_get (otp_expires_at doc)) in
  if negb (truthy expires_at) then Some CodeExpired else
  match now_gt now expires_at with
  | None => Some InternalError
  | Some true => Some CodeExpired
  | Some false => None
  end.

(** [verify_otp(body)]: [now] is [datetime.now(timezone.utc)], [token] is
    [uuid.uuid4().hex]. *)
Definition verify_otp (db : Db) (body : VerifyOtpRequest) (now : Z) (token : string)
    : Db * (HttpError + VerifyOtpResponse) :=
  match db with
  | None => (db, inl DbNotConfigured)
  | Some docs =>
      match verify_lookup docs body with
      | None => (db, inl InvalidCode)
      | Some doc =>
          match verify_check doc now with
          | Some e => (db, inl e)
          | None => (Some (update_one docs (otp_id doc) now),
                     inr {| verified_token := token |})
          end
      end
  end.

(** *** Two requests served concurrently

    A request handler runs [verify_otp] as two storage operations: the read
    of [find_one], then (after the checks on the document read) the write of
    [update_one].  Another request may run between them. *)
Inductive VerifyThread : Type :=
| VReady
| VFound (doc : option OtpDoc)
| VFinished (res : HttpError + VerifyOtpResponse).

Record Handler : Type := {
  h_body : VerifyOtpRequest;
  h_now : Z;
  h_token : string;
  h_stage : VerifyThread
}.

Definition with_stage (h : Handler) (t : VerifyThread) : Handler :=
  {| h_body := h_body h; h_now := h_now h; h_token := h_token h; h_stage := t |}.

(** One atomic storage step of a handler. *)
Definition handler_step (docs : list OtpDoc) (h : Handler) : list OtpDoc * Handler :=
  match h_stage h with
  | VReady => (docs, with_stage h (VFound (verify_lookup docs (h_body h))))
  | VFound None => (docs, with_stage h (VFinished (inl InvalidCode)))
  | VFound (Some doc) =>
      match verify_check doc (h_now h) with
      | Some e => (docs, with_stage h (VFinished (inl e)))
      | None => (update_one docs (otp_id doc) (h_now h),
                 with_stage h (VFinished (inr {| verified_token := h_token h |})))
      end
  | VFinished _ => (docs, h)
  end.

(** Run two handlers under a schedule: [true] steps the first, [false] the
    second. *)
Fixpoint run2 (sched : list bool) (docs : list OtpDoc) (a b : Handler)
    : list OtpDoc * Handler * Handler :=
  match sched with
  | [] => (docs, a, b)
  | true :: s => let (docs', a') := handler_step docs a in run2 s docs' a' b
  | false :: s => let (docs', b') := handler_step docs b in run2 s docs' a b'
  end.

Definition succeeded (h : Handler) : bool :=
  match h_stage h with VFinished (inr _) => true | _ => false end.

End Verifier.

(** ** [test_database] (GET /test) *)

(** What the endpoint reads from a configured [db] handle: [db.name] when the
    attribute exists, and the result of [db.list_collection_names()] or the
    message [str(e)] of the exception it raises. *)
Record DbHandle : Type := {
  handle_name : option string;
  handle_collections : string + list string
}.

Record TestResponse : Type := {
  t_backend : string;
  t_database : string;
  t_database_url : option string;      (* None: Python [None] *)
  t_database_name : option string;
  t_connection_status : string;
  t_collections : list string
}.

(** [os.getenv(k)] used as a condition: unset ([None]) and [""] are false. *)
Definition env_truthy (v : option string) : bool :=
  match v with None => false | Some s => negb (String.eqb s EmptyString) end.

(** [s[:50]] *)
Definition py_prefix_50 (s : string) : string := substring 0%nat 50%nat s.

Definition set_database (r : TestResponse) (v : string) : TestResponse :=
  {| t_backend := t_backend r; t_database := v; t_database_url := t_database_url r;
     t_database_name := t_database_name r; t_connection_status := t_connection_status r;
     t_collections := t_collections r |}.

Definition set_url_name (r : TestResponse) (u n : option string) : TestResponse :=
  {| t_backend := t_backend r; t_database := t_database r; t_database_url := u;
     t_database_name := n; t_connection_status := t_connection_status r;
     t_collections := t_collections r |}.

Section Diagnostics.
Local Open Scope string_scope.

(** [test_database()]: [db] is the handle ([None] when not configured),
    [env_url] and [env_name] are [os.getenv("DATABASE_URL")] and
    [os.getenv("DATABASE_NAME")]. *)
Definition test_database (db : option DbHandle) (env_url env_name : option string)
    : TestResponse :=
  let response :=
    {| t_backend := "✅ Running"; t_database := "❌ Not Available";
       t_database_url := None; t_database_name := None;
       t_connection_status := "Not Connected"; t_collections := [] |} in
  let response :=
    match db with
    | Some h =>
        let response :=
          {| t_backend := t_backend response; t_database := "✅ Available";
             t_database_url := Some "✅ Configured";
             t_database_name :=
               Some (match handle_name h with Some n => n | None => "✅ Connected" end);
             t_connection_status := "Connected";
             t_collections := t_collections response |} in
        match handle_collections h with
        | inr collections =>
            {| t_backend := t_backend response;
               t_database := "✅ Connected & Working";
               t_database_url := t_database_url response;
               t_database_name := t_database_name response;
               t_connection_status := t_connection_status response;
               t_collections := firstn 10%nat collections |}
        | inl e => set_database response ("⚠️  Connected but Error: " ++ py_prefix_50 e)
        end
    | None => set_database response "⚠️  Available but not initialized"
    end in
  set_url_name response
    (Some (if env_truthy env_url then "✅ Set" else "❌ Not Set"))
    (Some (if env_truthy env_name then "✅ Set" else "❌ Not Set")).

End Diagnostics.

(** ** Decimal reading of a code *)

(** [int(s)] of a string of decimal digits, accumulated from [v]. *)
Fixpoint dec_from (v : Z) (s : string) : Z :=
  match s with
  | EmptyString => v
  | String c r => dec_from (10 * v + (Z.of_nat (nat_of_ascii c) - 48)) r
  end.

Definition all_digits (s : string) : bool := forallb is_digit (list_ascii_of_string s).

(** ** Store invariant *)

(** The [_id]s of the collection are pairwise distinct. *)
Definition ids_unique (docs : list OtpDoc) : Prop := NoDup (map otp_id docs).

(** ** Vocabulary of the specification *)




(** The email shape of the spec: [local-part@domain], the local part
    non-empty, the domain free of [@] and containing at least one dot. *)
Fixpoint split_at_char (c : ascii) (l : list ascii) : option (list ascii * list ascii) :=
  match l with
  | [] => None
  | x :: r => if ascii_dec x c then Some ([], r)
              else match split_at_char c r with
                   | Some (a, b) => Some (x :: a, b)
                   | None => None
                   end
  end.

Definition email_syntax_ok (s : string) : bool :=
  match split_at_char "@" (list_ascii_of_string s) with
  | None => false
  | Some (local, domain) =>
      (negb (Nat.eqb (length local) 0)
       && negb (existsb (fun c => if ascii_dec c "@" then true else false) domain)
       && existsb (fun c => if ascii_dec c "." then true else false) domain)%bool
  end.

(** ** Concrete inputs *)

Definition sample_phone : string := "+15551234567".

(** A phone record with code ["000007"], as [send_otp] stores it, except for
    the given [consumed] and [expires_at] fields. *)
Definition sample_doc (consumed expires_at : option pyval) : OtpDoc :=
  {| otp_id := 1; otp_identifier := sample_phone; otp_via := ViaPhone;
     otp_code := "000007"; otp_consumed := consumed;
     otp_expires_at := expires_at;
     otp_created_at := Some (PyDatetime true 0);
     otp_updated_at := Some (PyDatetime true 0) |}.

Definition sample_request : VerifyOtpRequest :=
  {| verify_identifier := sample_phone; verify_otp_code := "000007" |}.


(** * Properties *)

Example format_06d_4213 : format_06d 4213 = "004213"%string.
Proof. reflexivity. Qed.
Example phone_ok : is_valid_phone " +15551234567 " = true.
Proof. reflexivity. Qed.
Example phone_short : is_valid_phone "12345" = false.
Proof. reflexivity. Qed.

Example email_syntax_examples :
  email_syntax_ok "user@example.com" = true /\ email_syntax_ok "not-an-email" = false.
Proof. split; reflexivity. Qed.

(** ** [str.strip] is idempotent *)

Lemma drop_spaces_idem (l : list ascii) : drop_spaces (drop_spaces l) = drop_spaces l.
Proof.
  induction l as [|c r IH]; simpl; [reflexivity|].
  destruct (is_py_space c) eqn:E; [exact IH|simpl; rewrite E; reflexivity].
Qed.

Lemma drop_spaces_split (l : list ascii) :
  exists pre, l = pre ++ drop_spaces l /\ Forall (fun c => is_py_space c = true) pre.
Proof.
  induction l as [|c r IH]; simpl; [exists []; auto|].
  destruct (is_py_space c) eqn:E.
  - destruct IH as [pre [Hl Hf]]. exists (c :: pre). simpl. rewrite <- Hl. auto.
  - exists []. auto.
Qed.

Lemma drop_spaces_head (l : list ascii) :
  drop_spaces l = [] \/ exists c r, drop_spaces l = c :: r /\ is_py_space c = false.
Proof.
  induction l as [|c r IH]; simpl; [auto|].
  destruct (is_py_space c) eqn:E; [exact IH|right; eauto].
Qed.

Lemma drop_spaces_fix (c : ascii) (r : list ascii) :
  is_py_space c = false -> drop_spaces (c :: r) = c :: r.
Proof. intros E. simpl. rewrite E. reflexivity. Qed.

Lemma strip_list_idem (l : list ascii) : strip_list (strip_list l) = strip_list l.
Proof.
  unfold strip_list.
  set (w := drop_spaces l).
  destruct (drop_spaces_split (rev w)) as [pre [Hw _]].
  set (x := drop_spaces (rev w)) in *.
  assert (Hr : drop_spaces (rev x) = rev x).
  { assert (Hw' : w = rev x ++ rev pre).
    { rewrite <- rev_app_distr, <- Hw, rev_involutive. reflexivity. }
    destruct (rev x) as [|c r'] eqn:Ex; [reflexivity|].
    destruct (drop_spaces_head l) as [H0|[c0 [r0 [H0 Hc0]]]];
      fold w in H0; rewrite Hw' in H0; simpl in H0; [discriminate|].
    injection H0 as -> _. apply drop_spaces_fix; exact Hc0. }
  rewrite Hr, rev_involutive. unfold x. rewrite drop_spaces_idem. reflexivity.
Qed.

Lemma strip_idem (s : string) : strip (strip s) = strip s.
Proof.
  unfold strip. rewrite list_ascii_of_string_of_list_ascii, strip_list_idem.
  reflexivity.
Qed.

(** ** The phone pattern denotes the spec's phone shape *)





(** ** The phone pattern over code points *)




(** ** On 7-bit strings the two models agree *)










(** ** The store *)

Lemma find_one_In (p : OtpDoc -> bool) (docs : list OtpDoc) (d : OtpDoc) :
  find_one p docs = Some d -> In d docs /\ p d = true.
Proof.
  induction docs as [|x r IH]; simpl; [discriminate|].
  destruct (p x) eqn:E.
  - intros [= <-]. auto.
  - intros H. destruct (IH H). auto.
Qed.

Lemma find_one_exists (p : OtpDoc -> bool) (docs : list OtpDoc) (d : OtpDoc) :
  In d docs -> p d = true -> exists d', find_one p docs = Some d'.
Proof.
  induction docs as [|x r IH]; simpl; [intros []|].
  intros [<-|Hin] Hp; destruct (p x) eqn:E; eauto.
  congruence.
Qed.

Lemma update_one_split (docs : list OtpDoc) (id now : Z) :
  In id (map otp_id docs) ->
  exists pre x post, docs = pre ++ x :: post /\ otp_id x = id /\
    update_one docs id now = pre ++ mark_consumed x now :: post.
Proof.
  induction docs as [|y r IH]; simpl; [intros []|].
  intros Hin. destruct (Z.eqb_spec (otp_id y) id) as [E|E].
  - exists [], y, r. auto.
  - destruct Hin as [Hy|Hin]; [congruence|].
    destruct (IH Hin) as [pre [x [post [-> [Hx Hu]]]]].
    exists (y :: pre), x, post. rewrite Hu. auto.
Qed.

Lemma otp_query_mark (q i c : string) (x : OtpDoc) (now : Z) :
  otp_query q i c (mark_consumed x now) = otp_query q i c x.
Proof. reflexivity. Qed.

Lemma find_one_after_update (q i c : string) (docs : list OtpDoc) (d : OtpDoc) (now : Z) :
  NoDup (map otp_id docs) ->
  find_one (otp_query q i c) docs = Some d ->
  find_one (otp_query q i c) (update_one docs (otp_id d) now) = Some (mark_consumed d now).
Proof.
  induction docs as [|x r IH]; simpl; [discriminate|].
  intros Hnd. inversion Hnd as [|? ? Hx Hr]; subst.
  destruct (otp_query q i c x) eqn:E.
  - intros [= <-]. rewrite Z.eqb_refl. simpl. rewrite otp_query_mark, E. reflexivity.
  - intros Hf. destruct (find_one_In _ _ _ Hf) as [Hin _].
    destruct (Z.eqb_spec (otp_id x) (otp_id d)) as [Eq|_].
    + exfalso. apply Hx. rewrite Eq. apply in_map. exact Hin.
    + simpl. rewrite E. apply IH; assumption.
Qed.

(** * Claims *)

(** ** Issuer *)

(** C1: a send-otp request with [via = "email"] whose trimmed identifier is
    not of the shape [local-part@domain] (domain with a dot) fails with
    [InvalidIdentifier] (HTTP 400) and leaves the store as it was; and no
    send-otp call writes the store unless its identifier passed the check. *)
Theorem send_otp_email_invalid_rejected (db : Db) (body : SendOtpRequest) (uuid_int now : Z)
    (Hvia : send_via body = ViaEmail)
    (Hbad : email_syntax_ok (strip (send_identifier body)) = false) :
  send_otp db body uuid_int now = (db, inl InvalidIdentifier) /\
  status_code InvalidIdentifier = 400 /\
  (forall body' uuid' now',
     fst (send_otp db body' uuid' now') <> db ->
     validate_identifier (send_via body') (strip (send_identifier body')) = true).
Proof.
  split; [|split; [reflexivity|]].
  - unfold send_otp, validate_identifier. rewrite Hvia. reflexivity.
  - intros body' uuid' now'. unfold send_otp.
    destruct (validate_identifier _ _); simpl; [reflexivity|].
    intros H. exfalso. apply H. reflexivity.
Qed.

Lemma send_otp_email_invalid_rejected_witness :
  email_syntax_ok (strip "not-an-email") = false /\
  send_otp (Some []) {| send_identifier := "not-an-email"; send_via := ViaEmail |} 42 0
  = (Some [], inl InvalidIdentifier).
Proof.
  split; [reflexivity|].
  apply (send_otp_email_invalid_rejected (Some [])
           {| send_identifier := "not-an-email"; send_via := ViaEmail |} 42 0);
    reflexivity.
Defined.

(** C5 (email half fails): a well-formed, mixed-case email identifier is
    rejected with [InvalidIdentifier] and nothing is stored, so no record
    with the lower-cased identifier is created. *)
Theorem send_otp_valid_email_not_stored :
  email_syntax_ok "User@Example.com" = true /\
  send_otp (Some []) {| send_identifier := "User@Example.com"; send_via := ViaEmail |}
    123456 0 = (Some [], inl InvalidIdentifier).
Proof. split; reflexivity. Qed.




(** C7: a successful send-otp appends one record whose [expires_at] is the
    issuance time plus ten minutes; and a verify-otp call whose lookup finds
    a never-consumed record after its expiry fails with [CodeExpired],
    leaving the store unchanged. *)
Theorem otp_expiry_ten_minutes :
  (forall db body uuid_int now db' resp,
     send_otp db body uuid_int now = (db', inr resp) ->
     exists docs d, db = Some docs /\ db' = Some (docs ++ [d]) /\
       otp_consumed d = Some (PyBool false) /\
       otp_expires_at d = Some (PyDatetime true (now + ten_minutes))) /\
  (forall fromisoformat docs body now token d t,
     verify_lookup docs body = Some d ->
     dict_get (otp_consumed d) = PyBool false ->
     dict_get (otp_expires_at d) = PyDatetime true t ->
     now > t ->
     verify_otp fromisoformat (Some docs) body now token = (Some docs, inl CodeExpired)).
Proof.
  split.
  - intros db body uuid_int now db' resp. unfold send_otp.
    destruct (negb _); [discriminate|].
    destruct db as [docs|]; simpl; [|discriminate].
    intros [= <- _]. eexists _, _. repeat split; reflexivity.
  - intros fromisoformat docs body now token d t Hf Hc He Hgt.
    unfold verify_otp. rewrite Hf. unfold verify_check.
    rewrite Hc, He. simpl.
    replace (now >? t) with true by (symmetry; apply Z.gtb_lt; lia).
    reflexivity.
Qed.

Lemma otp_expiry_ten_minutes_witness :
  (exists docs d, Some [] = Some docs /\
     Some [{| otp_id := 1; otp_identifier := "+15551234567"; otp_via := ViaPhone;
              otp_code := "000007"; otp_consumed := Some (PyBool false);
              otp_expires_at := Some (PyDatetime true 600000000);
              otp_created_at := Some (PyDatetime true 0);
              otp_updated_at := Some (PyDatetime true 0) |}] = Some (docs ++ [d]) /\
     otp_consumed d = Some (PyBool false) /\
     otp_expires_at d = Some (PyDatetime true (0 + ten_minutes))) /\
  verify_otp (fun _ => None)
    (Some [{| otp_id := 1; otp_identifier := "+15551234567"; otp_via := ViaPhone;
              otp_code := "000007"; otp_consumed := Some (PyBool false);
              otp_expires_at := Some (PyDatetime true 600000000);
              otp_created_at := Some (PyDatetime true 0);
              otp_updated_at := Some (PyDatetime true 0) |}])
    {| verify_identifier := "+15551234567"; verify_otp_code := "000007" |}
    600000001 "token"%string
  = (Some [{| otp_id := 1; otp_identifier := "+15551234567"; otp_via := ViaPhone;
              otp_code := "000007"; otp_consumed := Some (PyBool false);
              otp_expires_at := Some (PyDatetime true 600000000);
              otp_created_at := Some (PyDatetime true 0);
              otp_updated_at := Some (PyDatetime true 0) |}], inl CodeExpired).
Proof.
  split.
  - eapply (proj1 otp_expiry_ten_minutes (Some [])
             {| send_identifier := "+15551234567"; send_via := ViaPhone |} 7 0
             _ {| sent_debug_code := "000007" |}).
    reflexivity.
  - eapply (proj2 otp_expiry_ten_minutes (fun _ => None) _ _ 600000001 "token"%string _ 600000000);
      [reflexivity | reflexivity | reflexivity | lia].
Defined.

(** ** Verifier *)

(** C3: when the record found has a string [expires_at] that
    [datetime.fromisoformat] cannot parse, verify-otp never succeeds and
    leaves the store unchanged; on a record not yet consumed it fails with
    [CodeExpired] for the empty string and with an uncaught [TypeError]
    (HTTP 500) for any other string. *)
Theorem verify_unparseable_expiry_fails
    (fromisoformat : string -> option (bool * Z)) (docs : list OtpDoc)
    (body : VerifyOtpRequest) (now : Z) (token s : string) (d : OtpDoc)
    (Hfind : verify_lookup docs body = Some d)
    (Hexp : otp_expires_at d = Some (PyStr s))
    (Hparse : fromisoformat s = None) :
  exists e, verify_otp fromisoformat (Some docs) body now token = (Some docs, inl e) /\
    (truthy (dict_get (otp_consumed d)) = false ->
     (s = EmptyString /\ e = CodeExpired) \/ (s <> EmptyString /\ e = InternalError)).
Proof.
  unfold verify_otp. rewrite Hfind. unfold verify_check.
  destruct (truthy (dict_get (otp_consumed d))) eqn:Ec.
  - exists CodeAlreadyUsed. split; [reflexivity|discriminate].
  - rewrite Hexp. simpl. rewrite Hparse. simpl.
    destruct (String.eqb_spec s EmptyString) as [->|Hne]; simpl.
    + exists CodeExpired. auto.
    + exists InternalError. auto.
Qed.

Lemma verify_unparseable_expiry_fails_witness :
  exists e,
    verify_otp (fun _ => None) (Some [sample_doc (Some (PyBool false)) (Some (PyStr "garbage"))])
      sample_request 0 "token"%string
    = (Some [sample_doc (Some (PyBool false)) (Some (PyStr "garbage"))], inl e) /\
    (truthy (dict_get (otp_consumed (sample_doc (Some (PyBool false)) (Some (PyStr "garbage")))))
       = false ->
     ("garbage"%string = EmptyString /\ e = CodeExpired) \/
     ("garbage"%string <> EmptyString /\ e = InternalError)).
Proof.
  apply (verify_unparseable_expiry_fails (fun _ => None)
           [sample_doc (Some (PyBool false)) (Some (PyStr "garbage"))] sample_request
           0 "token"%string "garbage"
           (sample_doc (Some (PyBool false)) (Some (PyStr "garbage"))));
    reflexivity.
Defined.

(** C10: when the record found is not consumed and its [expires_at] is
    missing, [None] or another falsy value (empty string, [False], [0]),
    verify-otp fails with [CodeExpired] and leaves the store unchanged. *)
Theorem verify_missing_expiry_expired
    (fromisoformat : string -> option (bool * Z))
    (Hempty : fromisoformat EmptyString = None)
    (docs : list OtpDoc) (body : VerifyOtpRequest) (now : Z) (token : string) (d : OtpDoc)
    (Hfind : verify_lookup docs body = Some d)
    (Hcons : truthy (dict_get (otp_consumed d)) = false)
    (Hexp : truthy (dict_get (otp_expires_at d)) = false) :
  verify_otp fromisoformat (Some docs) body now token = (Some docs, inl CodeExpired).
Proof.
  unfold verify_otp. rewrite Hfind. unfold verify_check. rewrite Hcons.
  destruct (dict_get (otp_expires_at d)) as [| b | z | s | aw t] eqn:E;
    simpl in Hexp |- *; try reflexivity.
  - rewrite Hexp. reflexivity.
  - rewrite Hexp. reflexivity.
  - apply negb_false_iff, String.eqb_eq in Hexp. subst s.
    rewrite Hempty. reflexivity.
  - discriminate.
Qed.

Lemma verify_missing_expiry_expired_witness :
  verify_otp (fun _ => None) (Some [sample_doc (Some (PyBool false)) None])
    sample_request 0 "token"%string
  = (Some [sample_doc (Some (PyBool false)) None], inl CodeExpired).
Proof.
  apply (verify_missing_expiry_expired (fun _ => None) eq_refl
           [sample_doc (Some (PyBool false)) None] sample_request 0 "token"%string
           (sample_doc (Some (PyBool false)) None)); reflexivity.
Defined.

(** C9: a successful verify-otp call rewrites exactly one record, changing
    only [consumed] (to [True]) and [updated_at] (to the current time);
    failed verify-otp calls leave the store as it was, and send-otp only
    appends: no record is deleted. *)
Theorem verify_success_frame (fromisoformat : string -> option (bool * Z))
    (db db' : Db) (body : VerifyOtpRequest) (now : Z) (token : string)
    (resp : VerifyOtpResponse)
    (Hok : verify_otp fromisoformat db body now token = (db', inr resp)) :
  (exists pre x post x',
     db = Some (pre ++ x :: post) /\ db' = Some (pre ++ x' :: post) /\
     otp_id x' = otp_id x /\ otp_identifier x' = otp_identifier x /\
     otp_via x' = otp_via x /\ otp_code x' = otp_code x /\
     otp_expires_at x' = otp_expires_at x /\ otp_created_at x' = otp_created_at x /\
     otp_consumed x' = Some (PyBool true) /\
     otp_updated_at x' = Some (PyDatetime true now)) /\
  (forall db0 body0 now0 token0 e db1,
     verify_otp fromisoformat db0 body0 now0 token0 = (db1, inl e) -> db1 = db0) /\
  (forall docs body0 uuid_int now0,
     exists ext, fst (send_otp (Some docs) body0 uuid_int now0) = Some (docs ++ ext)).
Proof.
  split; [|split].
  - unfold verify_otp in Hok. destruct db as [docs|]; [|discriminate].
    destruct (verify_lookup docs body) as [d|] eqn:Hf; [|discriminate].
    destruct (verify_check fromisoformat d now); [discriminate|].
    injection Hok as <- _.
    destruct (find_one_In _ _ _ Hf) as [Hin _].
    destruct (update_one_split docs (otp_id d) now (in_map otp_id _ _ Hin))
      as [pre [x [post [-> [_ Hu]]]]].
    exists pre, x, post, (mark_consumed x now). rewrite Hu.
    repeat split; reflexivity.
  - intros db0 body0 now0 token0 e db1. unfold verify_otp.
    destruct db0 as [docs|]; [|congruence].
    destruct (verify_lookup docs body0) as [d|]; [|congruence].
    destruct (verify_check fromisoformat d now0); congruence.
  - intros docs body0 uuid_int now0. unfold send_otp.
    destruct (negb _); simpl.
    + exists []. rewrite app_nil_r. reflexivity.
    + eexists. reflexivity.
Qed.

Lemma verify_success_frame_witness :
  exists pre x post x',
    Some [sample_doc (Some (PyBool false)) (Some (PyDatetime true 600000000))]
      = Some (pre ++ x :: post) /\
    Some [mark_consumed (sample_doc (Some (PyBool false)) (Some (PyDatetime true 600000000))) 5]
      = Some (pre ++ x' :: post) /\
    otp_id x' = otp_id x /\ otp_identifier x' = otp_identifier x /\
    otp_via x' = otp_via x /\ otp_code x' = otp_code x /\
    otp_expires_at x' = otp_expires_at x /\ otp_created_at x' = otp_created_at x /\
    otp_consumed x' = Some (PyBool true) /\
    otp_updated_at x' = Some (PyDatetime true 5).
Proof.
  apply (verify_success_frame (fun _ => None)
           (Some [sample_doc (Some (PyBool false)) (Some (PyDatetime true 600000000))])
           (Some [mark_consumed (sample_doc (Some (PyBool false))
                                   (Some (PyDatetime true 600000000))) 5])
           sample_request 5 "token"%string {| verified_token := "token" |}).
  reflexivity.
Defined.

(** C4 (counterexample): two verify-otp requests for the same valid,
    unconsumed code both succeed when both lookups run before either
    update: there is no single winner. *)
Lemma verify_concurrent_both_win :
  let docs := [sample_doc (Some (PyBool false)) (Some (PyDatetime true 600000000))] in
  let a := {| h_body := sample_request; h_now := 10; h_token := "tokA"; h_stage := VReady |} in
  let b := {| h_body := sample_request; h_now := 11; h_token := "tokB"; h_stage := VReady |} in
  match run2 (fun _ => None) [true; false; true; false] docs a b with
  | (_, a', b') => succeeded a' = true /\ succeeded b' = true
  end.
Proof. split; reflexivity. Qed.

(** C4 (amended): the consume step is an unconditional [update_one] by
    [_id] after a separate lookup.  For a record that the lookup finds and
    that passes the checks, every interleaving of two requests' storage
    steps is covered.  Whenever both lookups run before either update (in
    any order, and whichever update lands first), both requests succeed.
    When one request's lookup runs after the other's update, the earlier
    request succeeds and the later one fails with [CodeAlreadyUsed]. *)
Theorem verify_concurrent_read_then_write
    (fromisoformat : string -> option (bool * Z)) (docs : list OtpDoc)
    (body : VerifyOtpRequest) (na nb : Z) (ta tb : string) (d : OtpDoc)
    (Hids : NoDup (map otp_id docs))
    (Hfind : verify_lookup docs body = Some d)
    (Hva : verify_check fromisoformat d na = None)
    (Hvb : verify_check fromisoformat d nb = None) :
  let a := {| h_body := body; h_now := na; h_token := ta; h_stage := VReady |} in
  let b := {| h_body := body; h_now := nb; h_token := tb; h_stage := VReady |} in
  (forall x y : bool,
     match run2 fromisoformat [x; negb x; y; negb y] docs a b with
     | (_, a', b') => succeeded a' = true /\ succeeded b' = true
     end) /\
  (forall x : bool,
     match run2 fromisoformat [x; x; negb x; negb x] docs a b with
     | (_, a', b') =>
         if x then succeeded a' = true /\ h_stage b' = VFinished (inl CodeAlreadyUsed)
         else succeeded b' = true /\ h_stage a' = VFinished (inl CodeAlreadyUsed)
     end).
Proof.
  intros a b.
  assert (Hupd : forall n, verify_lookup (update_one docs (otp_id d) n) body
                           = Some (mark_consumed d n)).
  { intros n. unfold verify_lookup in *. apply find_one_after_update; assumption. }
  split; [intros x y; destruct x, y | intros x; destruct x];
    unfold a, b;
    repeat (cbn [run2 handler_step h_stage h_body h_now h_token with_stage negb];
            rewrite ?Hfind, ?Hupd, ?Hva, ?Hvb);
    split; reflexivity.
Qed.

Lemma verify_concurrent_read_then_write_witness :
  let docs := [sample_doc (Some (PyBool false)) (Some (PyDatetime true 600000000))] in
  let a := {| h_body := sample_request; h_now := 10; h_token := "tokA"; h_stage := VReady |} in
  let b := {| h_body := sample_request; h_now := 11; h_token := "tokB"; h_stage := VReady |} in
  (forall x y : bool,
     match run2 (fun _ => None) [x; negb x; y; negb y] docs a b with
     | (_, a', b') => succeeded a' = true /\ succeeded b' = true
     end) /\
  (forall x : bool,
     match run2 (fun _ => None) [x; x; negb x; negb x] docs a b with
     | (_, a', b') =>
         if x then succeeded a' = true /\ h_stage b' = VFinished (inl CodeAlreadyUsed)
         else succeeded b' = true /\ h_stage a' = VFinished (inl CodeAlreadyUsed)
     end).
Proof.
  apply (verify_concurrent_read_then_write (fun _ => None)
           [sample_doc (Some (PyBool false)) (Some (PyDatetime true 600000000))]
           sample_request 10 11 "tokA" "tokB"
           (sample_doc (Some (PyBool false)) (Some (PyDatetime true 600000000))));
    [repeat constructor; simpl; intros [] | reflexivity | reflexivity | reflexivity].
Defined.

(** C2 (failing run): the same phone number receives the code ["000007"]
    twice.  After the first record has been verified, the second record is
    issued, unconsumed and unexpired, yet the first verify-otp call made for
    it fails with [CodeAlreadyUsed]: [find_one] returns the older, consumed
    record, which comes first in natural order. *)
Theorem verify_fresh_code_shadowed (fromisoformat : string -> option (bool * Z)) :
  let phone_req := {| send_identifier := sample_phone; send_via := ViaPhone |} in
  let r1 := send_otp (Some []) phone_req 7 0 in
  let v1 := verify_otp fromisoformat (fst r1) sample_request 1 "t1"%string in
  let r2 := send_otp (fst v1) phone_req 7 2 in
  snd r1 = inr {| sent_debug_code := "000007" |} /\
  snd v1 = inr {| verified_token := "t1" |} /\
  snd r2 = inr {| sent_debug_code := "000007" |} /\
  (exists d1 d2, fst r2 = Some [d1; d2] /\
     otp_identifier d2 = sample_phone /\ otp_code d2 = "000007"%string /\
     otp_consumed d2 = Some (PyBool false) /\
     otp_expires_at d2 = Some (PyDatetime true (2 + ten_minutes))) /\
  verify_otp fromisoformat (fst r2) sample_request 3 "t2"%string
  = (fst r2, inl CodeAlreadyUsed).
Proof.
  intros phone_req r1 v1 r2.
  split; [reflexivity|]. split; [reflexivity|]. split; [reflexivity|].
  split; [|reflexivity].
  do 2 eexists. split; [reflexivity|]. repeat split; reflexivity.
Qed.

(** The verifier side of C8: a record stored under the lower-cased trimmed
    identifier [e] is matched by a lookup with any casing variant [e'] of
    [e]. *)
Lemma verify_lookup_case_variant (docs : list OtpDoc) (e e' c : string) (r : OtpDoc) :
  In r docs -> otp_identifier r = lower (strip e) -> otp_code r = c ->
  lower (strip e') = lower (strip e) ->
  exists d, verify_lookup docs {| verify_identifier := e'; verify_otp_code := c |} = Some d.
Proof.
  intros Hin Hid Hc Hcase. unfold verify_lookup. simpl.
  apply (find_one_exists _ _ r Hin). unfold otp_query.
  rewrite Hid, Hc, Hcase, String.eqb_refl, String.eqb_refl. reflexivity.
Qed.

(** C8 (failing run): the end-to-end scenario of the spec.  The issuer
    rejects the well-formed address ["user@example.com"], so no OTP exists
    for it and verification with ["User@Example.com"] finds no record. *)
Theorem email_case_variant_never_issued (fromisoformat : string -> option (bool * Z)) :
  email_syntax_ok "user@example.com" = true /\
  send_otp (Some []) {| send_identifier := "user@example.com"; send_via := ViaEmail |} 7 0
  = (Some [], inl InvalidIdentifier) /\
  verify_otp fromisoformat (Some [])
    {| verify_identifier := "User@Example.com"; verify_otp_code := "000007" |} 1 "tok"%string
  = (Some [], inl InvalidCode).
Proof. repeat split; reflexivity. Qed.

(** * Further properties of the code *)

(** ** The six-digit code *)

Lemma digit_char_value (m : Z) (Hm : 0 <= m < 10) :
  nat_of_ascii (ascii_of_nat (48 + Z.to_nat m)) = (48 + Z.to_nat m)%nat.
Proof. apply nat_ascii_embedding. lia. Qed.

Lemma digits_fixed_length (k : nat) (n : Z) (acc : string) :
  String.length (digits_fixed k n acc) = (k + String.length acc)%nat.
Proof.
  revert n acc. induction k as [|k IH]; intros n acc; cbn [digits_fixed]; [reflexivity|].
  rewrite IH. cbn [String.length]. lia.
Qed.

Lemma digits_fixed_all_digits (k : nat) (n : Z) (acc : string) :
  all_digits acc = true -> all_digits (digits_fixed k n acc) = true.
Proof.
  revert n acc. induction k as [|k IH]; intros n acc H; cbn [digits_fixed]; [exact H|].
  apply IH. unfold all_digits in *. cbn [list_ascii_of_string forallb].
  rewrite H, andb_true_r.
  unfold is_digit. rewrite digit_char_value by (apply Z.mod_pos_bound; lia).
  assert (Z.to_nat (n mod 10) < 10)%nat.
  { pose proof (Z.mod_pos_bound n 10 ltac:(lia)). lia. }
  apply andb_true_intro. split; apply Nat.leb_le; lia.
Qed.

Lemma digits_fixed_value (k : nat) (n : Z) (acc : string) (v : Z) :
  0 <= n < 10 ^ Z.of_nat k ->
  dec_from v (digits_fixed k n acc) = dec_from (v * 10 ^ Z.of_nat k + n) acc.
Proof.
  revert n acc v. induction k as [|k IH]; intros n acc v H.
  - cbn [digits_fixed]. change (10 ^ Z.of_nat 0) with 1 in *. f_equal. lia.
  - rewrite Nat2Z.inj_succ, Z.pow_succ_r in * by lia. cbn [digits_fixed].
    pose proof (Z.mod_pos_bound n 10 ltac:(lia)) as Hmod.
    rewrite IH.
    + cbn [dec_from]. rewrite digit_char_value by lia. f_equal.
      rewrite Nat2Z.inj_add, Z2Nat.id by lia.
      pose proof (Z.div_mod n 10 ltac:(lia)). lia.
    + split; [apply Z.div_pos; lia|].
      apply Z.div_lt_upper_bound; lia.
Qed.

(** X1: the [debug_code] returned by a successful send-otp is the code
    stored in the new record; it has six characters, all decimal digits
    (leading zeros kept), and reads as [uuid4().int % 1000000]. *)
Theorem send_otp_debug_code (db db' : Db) (body : SendOtpRequest) (uuid_int now : Z)
    (resp : SendOtpResponse)
    (Hok : send_otp db body uuid_int now = (db', inr resp)) :
  String.length (sent_debug_code resp) = 6%nat /\
  all_digits (sent_debug_code resp) = true /\
  dec_from 0 (sent_debug_code resp) = uuid_int mod 1000000 /\
  exists docs d, db' = Some (docs ++ [d]) /\ otp_code d = sent_debug_code resp.
Proof.
  unfold send_otp in Hok. destruct (negb _); [discriminate|].
  destruct db as [docs|]; simpl in Hok; [|discriminate].
  injection Hok as <- <-. cbn [sent_debug_code].
  pose proof (Z.mod_pos_bound uuid_int 1000000 ltac:(lia)) as Hb.
  split; [|split; [|split]].
  - unfold format_06d. rewrite digits_fixed_length. reflexivity.
  - apply digits_fixed_all_digits. reflexivity.
  - unfold format_06d. rewrite digits_fixed_value by (cbn -[Z.modulo]; lia).
    cbn [dec_from]. lia.
  - eexists _, _. split; reflexivity.
Qed.

Lemma send_otp_debug_code_witness :
  String.length "004213" = 6%nat /\ all_digits "004213" = true /\
  dec_from 0 "004213" = 7004213 mod 1000000 /\
  exists docs d,
    fst (send_otp (Some []) {| send_identifier := sample_phone; send_via := ViaPhone |}
           7004213 0) = Some (docs ++ [d]) /\ otp_code d = "004213"%string.
Proof.
  apply (send_otp_debug_code (Some []) _
           {| send_identifier := sample_phone; send_via := ViaPhone |} 7004213 0
           {| sent_debug_code := "004213" |}).
  vm_compute. reflexivity.
Defined.

(** ** Error and edge behaviour of the endpoints *)

(** X2: without a configured database, a send-otp request whose identifier
    passes the check fails with [StorageError] (HTTP 500); the caller gets
    no code. *)
Theorem send_otp_no_database (body : SendOtpRequest) (uuid_int now : Z)
    (Hvalid : validate_identifier (send_via body) (strip (send_identifier body)) = true) :
  send_otp None body uuid_int now = (None, inl StorageError) /\
  status_code StorageError = 500.
Proof.
  unfold send_otp. rewrite Hvalid. split; reflexivity.
Qed.

Lemma send_otp_no_database_witness :
  send_otp None {| send_identifier := sample_phone; send_via := ViaPhone |} 7 0
  = (None, inl StorageError) /\ status_code StorageError = 500.
Proof.
  apply (send_otp_no_database {| send_identifier := sample_phone; send_via := ViaPhone |} 7 0).
  vm_compute. reflexivity.
Defined.

Lemma find_one_None (p : OtpDoc -> bool) (docs : list OtpDoc) :
  find_one p docs = None <-> (forall d, In d docs -> p d = false).
Proof.
  induction docs as [|x r IH]; simpl.
  - split; [intros _ d []|reflexivity].
  - destruct (p x) eqn:E; split.
    + discriminate.
    + intros H. rewrite H in E; [discriminate|left; reflexivity].
    + intros H d [<-|Hin]; [exact E|]. apply IH; assumption.
    + intros H. apply IH. intros d Hin. apply H. right. exact Hin.
Qed.

(** X3: verify-otp fails with [InvalidCode] exactly when no stored record
    has the submitted code and, as identifier, the trimmed submitted
    identifier or its lower-cased form. *)
Theorem verify_invalid_code_iff (fromisoformat : string -> option (bool * Z))
    (docs : list OtpDoc) (body : VerifyOtpRequest) (now : Z) (token : string) :
  snd (verify_otp fromisoformat (Some docs) body now token) = inl InvalidCode <->
  (forall d, In d docs ->
     otp_query (lower (strip (verify_identifier body))) (strip (verify_identifier body))
       (verify_otp_code body) d = false).
Proof.
  rewrite <- find_one_None. unfold verify_otp, verify_lookup.
  destruct (find_one _ docs) as [d|]; simpl; [|split; reflexivity].
  split; [|discriminate].
  unfold verify_check.
  destruct (truthy _); [discriminate|].
  destruct (negb _); [discriminate|].
  destruct (now_gt _ _) as [[|]|]; discriminate.
Qed.

(** X4: the consumed flag is checked first: a record found with a true
    [consumed] makes verify-otp fail with [CodeAlreadyUsed], whatever its
    expiry, and the store is unchanged. *)
Theorem verify_consumed_checked_first (fromisoformat : string -> option (bool * Z))
    (docs : list OtpDoc) (body : VerifyOtpRequest) (now : Z) (token : string) (d : OtpDoc)
    (Hfind : verify_lookup docs body = Some d)
    (Hcons : truthy (dict_get (otp_consumed d)) = true) :
  verify_otp fromisoformat (Some docs) body now token = (Some docs, inl CodeAlreadyUsed).
Proof.
  unfold verify_otp. rewrite Hfind. unfold verify_check. rewrite Hcons. reflexivity.
Qed.

Lemma verify_consumed_checked_first_witness :
  verify_otp (fun _ => None) (Some [sample_doc (Some (PyBool true)) (Some (PyStr "bad"))])
    sample_request 0 "token"%string
  = (Some [sample_doc (Some (PyBool true)) (Some (PyStr "bad"))], inl CodeAlreadyUsed).
Proof.
  apply (verify_consumed_checked_first (fun _ => None)
           [sample_doc (Some (PyBool true)) (Some (PyStr "bad"))] sample_request 0
           "token"%string (sample_doc (Some (PyBool true)) (Some (PyStr "bad"))));
    reflexivity.
Defined.

(** X5: the expiry instant itself is still valid: on an unconsumed record
    found with a timezone-aware expiry [t], verify-otp at any time
    [now <= t] succeeds and marks that record consumed. *)
Theorem verify_valid_until_expiry (fromisoformat : string -> option (bool * Z))
    (docs : list OtpDoc) (body : VerifyOtpRequest) (now t : Z) (token : string) (d : OtpDoc)
    (Hfind : verify_lookup docs body = Some d)
    (Hcons : truthy (dict_get (otp_consumed d)) = false)
    (Hexp : dict_get (otp_expires_at d) = PyDatetime true t)
    (Hnow : now <= t) :
  verify_otp fromisoformat (Some docs) body now token
  = (Some (update_one docs (otp_id d) now), inr {| verified_token := token |}).
Proof.
  unfold verify_otp. rewrite Hfind. unfold verify_check. rewrite Hcons, Hexp.
  cbn [parse_expiry truthy negb now_gt].
  assert (E : (now >? t) = false) by (rewrite Z.gtb_ltb; apply Z.ltb_ge; lia).
  rewrite E.
  reflexivity.
Qed.

Lemma verify_valid_until_expiry_witness :
  verify_otp (fun _ => None)
    (Some [sample_doc (Some (PyBool false)) (Some (PyDatetime true 600000000))])
    sample_request 600000000 "token"%string
  = (Some (update_one [sample_doc (Some (PyBool false)) (Some (PyDatetime true 600000000))]
             1 600000000), inr {| verified_token := "token" |}).
Proof.
  apply (verify_valid_until_expiry (fun _ => None)
           [sample_doc (Some (PyBool false)) (Some (PyDatetime true 600000000))]
           sample_request 600000000 600000000 "token"%string
           (sample_doc (Some (PyBool false)) (Some (PyDatetime true 600000000))));
    [reflexivity | reflexivity | reflexivity | lia].
Defined.

(** X6: an unconsumed record found whose expiry is a naive datetime, or a
    string that [fromisoformat] parses to a naive datetime, makes the
    comparison with the aware current time raise [TypeError]: verify-otp
    fails with an internal error (HTTP 500) and the store is unchanged. *)
Theorem verify_naive_expiry_crashes (fromisoformat : string -> option (bool * Z))
    (docs : list OtpDoc) (body : VerifyOtpRequest) (now t : Z) (token : string) (d : OtpDoc)
    (Hfind : verify_lookup docs body = Some d)
    (Hcons : truthy (dict_get (otp_consumed d)) = false)
    (Hexp : dict_get (otp_expires_at d) = PyDatetime false t \/
            exists s, dict_get (otp_expires_at d) = PyStr s /\
                      fromisoformat s = Some (false, t)) :
  verify_otp fromisoformat (Some docs) body now token = (Some docs, inl InternalError) /\
  status_code InternalError = 500.
Proof.
  split; [|reflexivity].
  unfold verify_otp. rewrite Hfind. unfold verify_check. rewrite Hcons.
  destruct Hexp as [He|[s [He Hp]]]; rewrite He; unfold parse_expiry;
    [|rewrite Hp]; reflexivity.
Qed.

Lemma verify_naive_expiry_crashes_witness :
  verify_otp (fun s => if String.eqb s "2030-01-01T00:00:00" then Some (false, 0) else None)
    (Some [sample_doc (Some (PyBool false)) (Some (PyStr "2030-01-01T00:00:00"))])
    sample_request 0 "token"%string
  = (Some [sample_doc (Some (PyBool false)) (Some (PyStr "2030-01-01T00:00:00"))],
     inl InternalError) /\ status_code InternalError = 500.
Proof.
  apply (verify_naive_expiry_crashes
           (fun s => if String.eqb s "2030-01-01T00:00:00" then Some (false, 0) else None)
           [sample_doc (Some (PyBool false)) (Some (PyStr "2030-01-01T00:00:00"))]
           sample_request 0 0 "token"%string
           (sample_doc (Some (PyBool false)) (Some (PyStr "2030-01-01T00:00:00"))));
    [reflexivity | reflexivity |].
  right. exists "2030-01-01T00:00:00"%string. split; reflexivity.
Defined.

(** ** Composition of the operations *)

Lemma find_one_app (p : OtpDoc -> bool) (l1 l2 : list OtpDoc) :
  find_one p (l1 ++ l2) =
  match find_one p l1 with Some d => Some d | None => find_one p l2 end.
Proof.
  induction l1 as [|x r IH]; simpl; [reflexivity|].
  destruct (p x); [reflexivity|exact IH].
Qed.

(** X14: the phone round trip.  A send-otp request for a valid phone number
    stores a record; a verify-otp request with the same identifier (as sent,
    untrimmed) and the returned [debug_code], made at most ten minutes
    later, succeeds, as long as no record stored before already answers
    that identifier and code. *)
Theorem send_then_verify_phone (fromisoformat : string -> option (bool * Z))
    (docs : list OtpDoc) (s : string) (uuid_int now now' : Z) (token : string)
    (Hvalid : is_valid_phone s = true)
    (Hfresh : verify_lookup docs
                {| verify_identifier := s;
                   verify_otp_code := format_06d (uuid_int mod 1000000) |} = None)
    (Hnow : now' <= now + ten_minutes) :
  match send_otp (Some docs) {| send_identifier := s; send_via := ViaPhone |} uuid_int now with
  | (Some docs', inr r) =>
      exists docs'',
        verify_otp fromisoformat (Some docs')
          {| verify_identifier := s; verify_otp_code := sent_debug_code r |} now' token
        = (Some docs'', inr {| verified_token := token |})
  | _ => False
  end.
Proof.
  unfold send_otp, validate_identifier. cbn [send_identifier send_via via_is_email].
  assert (Hv : is_valid_phone (strip s) = true).
  { unfold is_valid_phone in *. rewrite strip_idem. exact Hvalid. }
  rewrite Hv. cbn [negb create_document sent_debug_code].
  eexists. unfold verify_otp, verify_lookup in *. cbn [verify_identifier verify_otp_code] in *.
  rewrite find_one_app, Hfresh. cbn [find_one].
  unfold otp_query. cbn [otp_identifier otp_code data_identifier data_code].
  rewrite !String.eqb_refl, Bool.orb_true_r. cbn [andb].
  unfold verify_check.
  cbn [otp_consumed otp_expires_at data_consumed data_expires_at dict_get truthy negb
       parse_expiry now_gt].
  replace (now' >? now + ten_minutes) with false by (symmetry; rewrite Z.gtb_ltb; apply Z.ltb_ge; lia).
  reflexivity.
Qed.

Lemma send_then_verify_phone_witness :
  match send_otp (Some []) {| send_identifier := sample_phone; send_via := ViaPhone |} 7 0 with
  | (Some docs', inr r) =>
      exists docs'',
        verify_otp (fun _ => None) (Some docs')
          {| verify_identifier := sample_phone; verify_otp_code := sent_debug_code r |}
          600000000 "tok"%string
        = (Some docs'', inr {| verified_token := "tok" |})
  | _ => False
  end.
Proof.
  apply (send_then_verify_phone (fun _ => None) [] sample_phone 7 0 600000000 "tok");
    [vm_compute; reflexivity | reflexivity | unfold ten_minutes; lia].
Defined.

(** X8: once a verify-otp request has succeeded, the same request fails with
    [CodeAlreadyUsed] at any later time, as long as [_id]s are distinct. *)
Theorem verify_twice_already_used (fromisoformat : string -> option (bool * Z))
    (docs docs' : list OtpDoc) (body : VerifyOtpRequest) (now now' : Z)
    (token token' : string) (resp : VerifyOtpResponse)
    (Hids : ids_unique docs)
    (Hok : verify_otp fromisoformat (Some docs) body now token = (Some docs', inr resp)) :
  verify_otp fromisoformat (Some docs') body now' token' = (Some docs', inl CodeAlreadyUsed).
Proof.
  unfold verify_otp in Hok.
  destruct (verify_lookup docs body) as [d|] eqn:Hf; [|discriminate].
  destruct (verify_check fromisoformat d now); [discriminate|].
  injection Hok as <- _.
  unfold verify_lookup in Hf.
  apply verify_consumed_checked_first with (d := mark_consumed d now); [|reflexivity].
  unfold verify_lookup. apply find_one_after_update; assumption.
Qed.

Lemma verify_twice_already_used_witness :
  verify_otp (fun _ => None)
    (Some (update_one [sample_doc (Some (PyBool false)) (Some (PyDatetime true 600000000))]
             1 5)) sample_request 6 "t2"%string
  = (Some (update_one [sample_doc (Some (PyBool false)) (Some (PyDatetime true 600000000))]
             1 5), inl CodeAlreadyUsed).
Proof.
  apply (verify_twice_already_used (fun _ => None)
           [sample_doc (Some (PyBool false)) (Some (PyDatetime true 600000000))]
           (update_one [sample_doc (Some (PyBool false)) (Some (PyDatetime true 600000000))]
              1 5)
           sample_request 5 6 "t1"%string "t2"%string {| verified_token := "t1" |}).
  - unfold ids_unique. simpl. constructor; [intros []|constructor].
  - reflexivity.
Defined.

(** X9: both endpoints ignore whitespace around the identifier: a request
    behaves as the same request with the identifier already trimmed. *)
Theorem endpoints_ignore_surrounding_whitespace :
  (forall db s via uuid_int now,
     send_otp db {| send_identifier := s; send_via := via |} uuid_int now
     = send_otp db {| send_identifier := strip s; send_via := via |} uuid_int now) /\
  (forall fromisoformat db s c now token,
     verify_otp fromisoformat db {| verify_identifier := s; verify_otp_code := c |} now token
     = verify_otp fromisoformat db
         {| verify_identifier := strip s; verify_otp_code := c |} now token).
Proof.
  split.
  - intros db s via uuid_int now. unfold send_otp. cbn [send_identifier send_via].
    rewrite strip_idem. reflexivity.
  - intros fromisoformat db s c now token. unfold verify_otp, verify_lookup.
    cbn [verify_identifier verify_otp_code]. rewrite strip_idem. reflexivity.
Qed.

(** ** The diagnostic endpoint *)

Lemma substring_0_length (n : nat) (s : string) :
  String.length (substring 0 n s) = Nat.min n (String.length s).
Proof.
  revert n. induction s as [|c r IH]; intros n; destruct n as [|n]; simpl;
    try reflexivity.
  rewrite IH. reflexivity.
Qed.

(** X11: [GET /test] lists at most ten collections: the first ten names
    returned by [list_collection_names()], or none when the database is not
    configured or the listing raises. *)
Theorem test_database_collections (db : option DbHandle) (env_url env_name : option string) :
  (length (t_collections (test_database db env_url env_name)) <= 10)%nat /\
  t_collections (test_database db env_url env_name) =
  match db with
  | Some h => match handle_collections h with
              | inr collections => firstn 10 collections
              | inl _ => []
              end
  | None => []
  end.
Proof.
  destruct db as [h|]; [destruct (handle_collections h) as [e|cs] eqn:E|];
    unfold test_database; try rewrite E; cbn [t_collections set_url_name set_database];
    split; try reflexivity; cbn [length]; try lia.
  rewrite length_firstn. lia.
Qed.

(** X12: [GET /test] reports [database_url] and [database_name] from the
    environment only: ["✅ Set"] when [DATABASE_URL] (resp. [DATABASE_NAME])
    is set to a non-empty string, ["❌ Not Set"] otherwise; the values set
    from the handle, including [db.name], never reach the response. *)
Theorem test_database_env_only (db : option DbHandle) (env_url env_name : option string) :
  t_database_url (test_database db env_url env_name)
    = Some (if env_truthy env_url then "✅ Set" else "❌ Not Set")%string /\
  t_database_name (test_database db env_url env_name)
    = Some (if env_truthy env_name then "✅ Set" else "❌ Not Set")%string.
Proof.
  unfold test_database.
  destruct db as [h|]; [destruct (handle_collections h)|]; split; reflexivity.
Qed.

(** X13: [GET /test] reports ["Connected"] exactly when a database handle
    exists; when listing the collections raises, [database] is the error
    prefix followed by at most the first 50 characters of the message. *)
Theorem test_database_status (db : option DbHandle) (env_url env_name : option string) :
  t_connection_status (test_database db env_url env_name)
    = (match db with Some _ => "Connected" | None => "Not Connected" end)%string /\
  (forall h e, db = Some h -> handle_collections h = inl e ->
     exists m, t_database (test_database db env_url env_name)
                 = ("⚠️  Connected but Error: " ++ m)%string /\
               (String.length m <= 50)%nat /\ prefix m e = true).
Proof.
  split.
  - unfold test_database.
    destruct db as [h|]; [destruct (handle_collections h)|]; reflexivity.
  - intros h e -> He. unfold test_database. rewrite He.
    exists (py_prefix_50 e). cbn [t_database set_url_name set_database].
    split; [reflexivity|split].
    + unfold py_prefix_50. rewrite substring_0_length. lia.
    + unfold py_prefix_50. clear He. generalize 50%nat as n.
      induction e as [|c r IH]; intros n; destruct n as [|n]; simpl; try reflexivity.
      destruct (ascii_dec c c) as [_|C]; [apply IH|contradiction].
Qed.

Lemma test_database_status_witness :
  exists m, t_database (test_database (Some {| handle_name := None;
                                               handle_collections := inl "timeout"%string |})
                          None None)
              = ("⚠️  Connected but Error: " ++ m)%string /\
            (String.length m <= 50)%nat /\ prefix m "timeout"%string = true.
Proof.
  apply (proj2 (test_database_status
                  (Some {| handle_name := None; handle_collections := inl "timeout"%string |})
                  None None)
           {| handle_name := None; handle_collections := inl "timeout"%string |} "timeout"%string);
    reflexivity.
Defined.
